(** * Pod metrics table: the series-to-row transform and its hook

    A shallow embedding of
    [infrastructure_node_metrics_tables/pod/use_pod_metrics_table.ts].

    Conventions of the embedding.
    - A JavaScript [number] is an exact rational ([Qc], canonical
      fractions, so that equal numbers are equal terms).  Rounding of
      IEEE doubles is not modelled.
    - [null] and [undefined] are [None].
    - A JavaScript computation may read the wall clock ([Date.now()])
      and may complete abruptly; it is a function from the clock
      reading to a [Completion]. *)

From Stdlib Require Import QArith Qcanon Qround.
From stdpp Require Import base numbers strings option list gmap.

Abbreviation number := Qc.

(** The number written as the integer [z], and as the fraction [n/d]. *)
Definition num (z : Z) : number := Q2Qc (inject_Z z).
Definition frac (n : Z) (d : positive) : number := Q2Qc (n # d).

(** ** Completions and the clock *)

Inductive JsError : Type :=
  | TypeError (message : string).

Inductive Completion (A : Type) : Type :=
  | Normal (value : A)
  | Throw (error : JsError).
Arguments Normal {A} value.
Arguments Throw {A} error.

(** A computation run while [Date.now()] reads [now]. *)
Definition JS (A : Type) : Type := number → Completion A.

Global Instance JS_ret : MRet JS := λ A a _, Normal a.
Global Instance JS_bind : MBind JS := λ A B k m now,
  match m now with
  | Normal a => k a now
  | Throw e => Throw e
  end.

Global Instance Completion_fmap : FMap Completion := λ A B f c,
  match c with
  | Normal a => Normal (f a)
  | Throw e => Throw e
  end.

(** [Date.now()] *)
Definition Date_now : JS number := λ now, Normal now.

(** [Math.floor(x)] *)
Definition Math_floor (x : number) : number := num (Qfloor x).

(** [a ?? b]: the left operand unless it is null or undefined. *)
Definition nullish {A : Type} (a b : option A) : option A :=
  match a with
  | Some _ => a
  | None => b
  end.
Infix "??" := nullish (at level 45, left associativity).

(** [const [x, y] = v]: array destructuring of two elements.  Elements
    past the end of the array are undefined; a [v] that is not iterable
    (null or undefined) is a [TypeError]. *)
Definition destructure2 {A : Type} (v : option (list A)) : JS (option A * option A) :=
  match v with
  | Some l => mret (l !! 0%nat, l !! 1%nat)
  | None => λ _, Throw (TypeError "undefined is not iterable")
  end.

(** [values.at(-1)]: the last element, undefined on an empty array. *)
Definition at_minus_1 {A : Type} (values : list A) : option A := last values.

(** ** The query configuration *)

Inductive PodMetricsField : Type :=
  | kubernetes_pod_start_time
  | kubernetes_pod_cpu_usage_limit_pct
  | kubernetes_pod_memory_usage_bytes.

Definition fieldName (f : PodMetricsField) : string :=
  match f with
  | kubernetes_pod_start_time => "kubernetes.pod.start_time"
  | kubernetes_pod_cpu_usage_limit_pct => "kubernetes.pod.cpu.usage.limit.pct"
  | kubernetes_pod_memory_usage_bytes => "kubernetes.pod.memory.usage.bytes"
  end.

Inductive Aggregation : Type := agg_max | agg_avg.

Record MetricSpec : Type := { aggregation : Aggregation; field : string }.

(** An object literal keyed by field, in the order it is written. *)
Definition MetricsMap : Type := list (PodMetricsField * MetricSpec).

Record MetricsQueryOptions : Type := {
  sourceFilter : string * string;        (* term: { key: value } *)
  groupByField : list string;
  metricsMap : MetricsMap;
}.

Definition podMetricsQueryConfig : MetricsQueryOptions := {|
  sourceFilter := ("event.dataset", "kubernetes.pod");
  groupByField := ["kubernetes.pod.uid"; "kubernetes.pod.name"];
  metricsMap := [
    (kubernetes_pod_start_time,
      {| aggregation := agg_max; field := "kubernetes.pod.start_time" |});
    (kubernetes_pod_cpu_usage_limit_pct,
      {| aggregation := agg_avg; field := "kubernetes.pod.cpu.usage.limit.pct" |});
    (kubernetes_pod_memory_usage_bytes,
      {| aggregation := agg_avg; field := "kubernetes.pod.memory.usage.bytes" |})
  ];
|}.

(** ** Rows, series and the table state *)

Record PodNodeMetricsRow : Type := {
  id : option string;
  name : option string;
  uptime : option number;
  averageCpuUsagePercent : option number;
  averageMemoryUsageMegabytes : option number;
}.

Record MetricsExplorerSeries (Row : Type) : Type := {
  keys : option (list string);
  rows : list Row;
}.
Arguments keys {Row} _.
Arguments rows {Row} _.

Inductive Direction : Type := asc | desc.

Module SortState.
Record t : Type := mk { field : string; direction : Direction }.
End SortState.

Record UseNodeMetricsTableOptions (Timerange FilterClauseDsl : Type) : Type := {
  timerange : Timerange;
  filterClauseDsl : FilterClauseDsl;
}.
Arguments timerange {Timerange FilterClauseDsl} _.
Arguments filterClauseDsl {Timerange FilterClauseDsl} _.

(** The argument and the result of the shared hook
    [useInfrastructureNodeMetrics]. *)
Record UseInfrastructureNodeMetricsOptions (Options Timerange Row T : Type) : Type := {
  opt_metricsExplorerOptions : Options;
  opt_timerange : Timerange;
  opt_transform : MetricsExplorerSeries Row → JS T;
  opt_sortState : SortState.t;
  opt_currentPageIndex : number;
}.
Arguments opt_metricsExplorerOptions {Options Timerange Row T} _.
Arguments opt_timerange {Options Timerange Row T} _.
Arguments opt_transform {Options Timerange Row T} _.
Arguments opt_sortState {Options Timerange Row T} _.
Arguments opt_currentPageIndex {Options Timerange Row T} _.

Record NodeMetricsResult (Data : Type) : Type := {
  data : Data;
  isLoading : bool;
}.
Arguments data {Data} _.
Arguments isLoading {Data} _.

(** ** The imports from [../shared] and [common/http_api]

    These modules are not part of the sources at hand.  Their types are
    kept abstract and their functions are the fields of a class; the
    functions of this file are defined, and most properties proved, for
    every implementation. *)
Class Shared : Type := {
  MetricsExplorerRow : Type;
  MetricsByField : Type;
  MetricsExplorerOptions : Type;
  Timerange : Type;
  FilterClauseDsl : Type;
  (** what the hook sees of the world besides its arguments: the state of
      the request and whatever the shared hook stores between renders *)
  FetchEnv : Type;
  NodeMetricsTableData : Type → Type;
  createMetricByFieldLookup : MetricsMap → MetricsByField;
  makeUnpackMetric :
    MetricsByField → MetricsExplorerRow → PodMetricsField → option number;
  averageOfValues : list number → number;
  scaleUpPercentage : number → number;
  (** the [options] member of the object it returns *)
  metricsToApiOptions :
    MetricsQueryOptions → FilterClauseDsl → MetricsExplorerOptions;
  useInfrastructureNodeMetrics : ∀ T : Type,
    UseInfrastructureNodeMetricsOptions
      MetricsExplorerOptions Timerange MetricsExplorerRow T →
    FetchEnv → NodeMetricsResult (NodeMetricsTableData T);
}.
Arguments useInfrastructureNodeMetrics {_ T} _ _.

(** ** React *)

(** The state cells of the component, in the order of its [useState]
    calls. *)
Record HookCells : Type := {
  cell_currentPageIndex : option number;
  cell_sortState : option SortState.t;
}.

(** The cells when the component is rendered for the first time. *)
Definition firstRender : HookCells :=
  {| cell_currentPageIndex := None; cell_sortState := None |}.

Definition write_currentPageIndex (v : option number) (cells : HookCells) : HookCells :=
  {| cell_currentPageIndex := v; cell_sortState := cell_sortState cells |}.

Definition write_sortState (v : option SortState.t) (cells : HookCells) : HookCells :=
  {| cell_currentPageIndex := cell_currentPageIndex cells; cell_sortState := v |}.

(** An object literal: its properties in the order they are written. *)
Definition JsObject (V : Type) : Type := list (string * V).

Definition ownKeys {V : Type} (o : JsObject V) : list string := o.*1.

Fixpoint getProp {V : Type} (o : JsObject V) (key : string) : option V :=
  match o with
  | [] => None
  | (k, v) :: o' => if bool_decide (k = key) then Some v else getProp o' key
  end.

(** [useState(initial)] on a state cell of the component: the cell is
    empty until the first render has run, and the setter stores a value
    for the renders that follow. *)
Definition useState {Cells A : Type} (initial : A)
    (read : Cells → option A) (write : option A → Cells → Cells)
    (cells : Cells) : A * (A → Cells → Cells) :=
  (default initial (read cells), λ value, write (Some value)).

(** [useMemo(factory, deps)]: the value of the factory. *)
Definition useMemo {A Deps : Type} (factory : unit → A) (deps : Deps) : A :=
  factory ().

(** ** The functions of the file *)

Section use_pod_metrics_table.
Context `{Shared}.

Abbreviation Series := (MetricsExplorerSeries MetricsExplorerRow).

Definition metricByField : MetricsByField :=
  createMetricByFieldLookup (metricsMap podMetricsQueryConfig).

Definition unpackMetric : MetricsExplorerRow → PodMetricsField → option number :=
  makeUnpackMetric metricByField.

(** The object [{ startTime, averageCpuUsagePercent,
    averageMemoryUsageMegabytes }], as a triple in that order. *)
Definition unpackMetrics (row : MetricsExplorerRow)
    : option number * option number * option number :=
  (unpackMetric row kubernetes_pod_start_time,
   unpackMetric row kubernetes_pod_cpu_usage_limit_pct,
   unpackMetric row kubernetes_pod_memory_usage_bytes).

(** [values.push(value)] when [value !== null] *)
Definition pushUnlessNull (values : list number) (value : option number) : list number :=
  match value with
  | Some v => values ++ [v]
  | None => values
  end.

(** The three arrays, as a triple in the order of the returned object. *)
Definition collectMetricValues (rows : list MetricsExplorerRow)
    : list number * list number * list number :=
  foldl
    (λ '(startTimeValues, averageCpuUsagePercentValues,
          averageMemoryUsageMegabytesValues) row,
       let '(startTime, averageCpuUsagePercent, averageMemoryUsageMegabytes) :=
         unpackMetrics row in
       (pushUnlessNull startTimeValues startTime,
        pushUnlessNull averageCpuUsagePercentValues averageCpuUsagePercent,
        pushUnlessNull averageMemoryUsageMegabytesValues averageMemoryUsageMegabytes))
    ([], [], []) rows.

(** The object [{ uptime, averageCpuUsagePercent,
    averageMemoryUsageMegabytes }], as a triple in that order.  The
    non-null assertion [startTime!] leaves no trace at run time: the
    subtraction is applied to the element [at(-1)] finds. *)
Definition calculateMetricAverages (rows : list MetricsExplorerRow)
    : JS (option number * option number * option number) :=
  let '(startTimeValues, averageCpuUsagePercentValues,
        averageMemoryUsageMegabytesValues) := collectMetricValues rows in
  uptime ←
    (if bool_decide (length startTimeValues ≠ 0%nat) then
       let startTime := at_minus_1 startTimeValues in
       now ← Date_now;
       mret ((λ startTime, now - startTime)%Qc <$> startTime)
     else mret None);
  let averageCpuUsagePercent :=
    if bool_decide (length averageCpuUsagePercentValues ≠ 0%nat) then
      Some (scaleUpPercentage (averageOfValues averageCpuUsagePercentValues))
    else None in
  let averageMemoryUsageMegabytes :=
    if bool_decide (length averageMemoryUsageMegabytesValues ≠ 0%nat) then
      let averageInBytes := averageOfValues averageMemoryUsageMegabytesValues in
      let bytesPerMegabyte := num 1000000 in
      Some (Math_floor (averageInBytes / bytesPerMegabyte)%Qc)
    else None in
  mret (uptime, averageCpuUsagePercent, averageMemoryUsageMegabytes).

Definition rowWithoutMetrics (id name : option string) : PodNodeMetricsRow := {|
  id := id;
  name := name;
  uptime := None;
  averageCpuUsagePercent := None;
  averageMemoryUsageMegabytes := None;
|}.

Definition seriesToPodNodeMetricsRow (series : Series) : JS PodNodeMetricsRow :=
  '(id, name) ← destructure2 (keys series ?? Some []);
  if bool_decide (length (rows series) = 0%nat) then
    mret (rowWithoutMetrics id name)
  else
    '(uptime, averageCpuUsagePercent, averageMemoryUsageMegabytes) ←
      calculateMetricAverages (rows series);
    mret {|
      id := id;
      name := name;
      uptime := uptime;
      averageCpuUsagePercent := averageCpuUsagePercent;
      averageMemoryUsageMegabytes := averageMemoryUsageMegabytes;
    |}.

(** What a property of the object returned by the hook can hold. *)
Inductive HookValue : Type :=
  | VNumber (n : number)
  | VData (d : NodeMetricsTableData PodNodeMetricsRow)
  | VBoolean (b : bool)
  | VSetCurrentPageIndex (setter : number → HookCells → HookCells)
  | VSetSortState (setter : SortState.t → HookCells → HookCells)
  | VSortState (s : SortState.t)
  | VTimerange (t : Timerange).

(** One render of the hook: [cells] is the stored state of the
    component and [env] what the shared hook observes. *)
Definition usePodMetricsTable
    (props : UseNodeMetricsTableOptions Timerange FilterClauseDsl)
    (cells : HookCells) (env : FetchEnv) : JsObject HookValue :=
  let timerange := timerange props in
  let filterClauseDsl := filterClauseDsl props in
  let '(currentPageIndex, setCurrentPageIndex) :=
    useState (num 0) cell_currentPageIndex write_currentPageIndex cells in
  let '(sortState, setSortState) :=
    useState (SortState.mk "averageCpuUsagePercent" desc)
      cell_sortState write_sortState cells in
  let podMetricsOptions :=
    useMemo (λ _, metricsToApiOptions podMetricsQueryConfig filterClauseDsl)
      [filterClauseDsl] in
  let result :=
    useInfrastructureNodeMetrics {|
      opt_metricsExplorerOptions := podMetricsOptions;
      opt_timerange := timerange;
      opt_transform := seriesToPodNodeMetricsRow;
      opt_sortState := sortState;
      opt_currentPageIndex := currentPageIndex;
    |} env in
  let data := data result in
  let isLoading := isLoading result in
  [ ("currentPageIndex", VNumber currentPageIndex);
    ("data", VData data);
    ("isLoading", VBoolean isLoading);
    ("setCurrentPageIndex", VSetCurrentPageIndex setCurrentPageIndex);
    ("setSortState", VSetSortState setSortState);
    ("sortState", VSortState sortState);
    ("timerange", VTimerange timerange) ].

(** The values of a metric that the rows hold, in row order. *)
Definition nonNullValues (f : PodMetricsField) (rows : list MetricsExplorerRow)
    : list number :=
  omap (λ row, unpackMetric row f) rows.

End use_pod_metrics_table.

(** ** A reading of the shared modules

    The shared modules as the specification describes them, so that the
    functions above can be run on concrete series. *)

(** Modelled from the spec: the row type of [common/http_api/metrics_explorer],
    "a timestamped bucket holding zero or more named metric values (value
    may be absent/null if not reported in that bucket)". *)
Record SpecRow : Type := {
  timestamp : number;
  metrics : gmap string (option number);
}.

Global Instance PodMetricsField_eq_dec : EqDecision PodMetricsField.
Proof. solve_decision. Defined.

(** Modelled from the spec: [createMetricByFieldLookup] of [../shared],
    the "field-to-column mapping" of the unpack utility; a field of the
    metric spec is read from the column named after it. *)
Definition spec_createMetricByFieldLookup (m : MetricsMap)
    : PodMetricsField → option string :=
  λ f, (λ kv, field kv.2) <$> (snd <$> list_find (λ kv, kv.1 = f) m).

(** Modelled from the spec: [makeUnpackMetric] of [../shared], the
    "unpack metric by field name" utility; its result is typed
    [number | null], a value that is absent from the row is null. *)
Definition spec_makeUnpackMetric (byField : PodMetricsField → option string)
    (row : SpecRow) (f : PodMetricsField) : option number :=
  column ← byField f; mjoin (metrics row !! column).

Definition sumOfValues (values : list number) : number :=
  foldl Qcplus (num 0) values.

(** Modelled from the spec: [averageOfValues] of [../shared], the
    "arithmetic mean" of the collected values. *)
Definition spec_averageOfValues (values : list number) : number :=
  (sumOfValues values / num (Z.of_nat (length values)))%Qc.

(** Modelled from the spec: [scaleUpPercentage] of [../shared], "scaled
    from fraction to percentage". *)
Definition spec_scaleUpPercentage (unscaledPercentage : number) : number :=
  (unscaledPercentage * num 100)%Qc.

(** Modelled from the spec: [metricsToApiOptions] of [../shared]; the
    request is the metric spec together with the caller's filter
    expression. *)
Definition spec_metricsToApiOptions (config : MetricsQueryOptions) (filterClauseDsl : string)
    : MetricsQueryOptions * string :=
  (config, filterClauseDsl).

(** Modelled from the spec: the states of a request, "Fetching", then
    "Ready" with the series returned or "Failed". *)
Inductive FetchOutcome : Type :=
  | Fetching
  | Ready (series : list (MetricsExplorerSeries SpecRow))
  | Failed.

(** Modelled from the spec: what a render observes, the state of the
    request and the clock read while the series are transformed. *)
Record SpecEnv : Type := {
  outcome : FetchOutcome;
  clock : number;
}.

(** The transform applied to each series in turn; the first abrupt
    completion ends the traversal. *)
Fixpoint mapSeries {A T : Type} (transform : A → JS T) (series : list A) : JS (list T) :=
  match series with
  | [] => mret []
  | s :: rest =>
      row ← transform s;
      rows ← mapSeries transform rest;
      mret (row :: rows)
  end.

Section spec_hook.
(** Sorting and pagination are left to the collaborator by the
    specification ("not re-specified here"). *)
Variable sortAndPaginate : ∀ T : Type, SortState.t → number → list T → list T.

(** Modelled from the spec: [useInfrastructureNodeMetrics] of
    [../shared].  The request "may suspend"; its "failure surfaces as
    isLoading=false with empty rows"; the rows of a request that
    succeeded are the transformed series, sorted and paginated.  The
    table data is the list of rows.  No fatal condition originates at
    this layer: a transform that completes abruptly leaves no rows. *)
Definition spec_useInfrastructureNodeMetrics (T : Type)
    (options : UseInfrastructureNodeMetricsOptions
                 (MetricsQueryOptions * string) (number * number) SpecRow T)
    (env : SpecEnv) : NodeMetricsResult (list T) :=
  match outcome env with
  | Fetching => {| data := []; isLoading := true |}
  | Failed => {| data := []; isLoading := false |}
  | Ready series =>
      match mapSeries (opt_transform options) series (clock env) with
      | Normal rows =>
          {| data := sortAndPaginate T (opt_sortState options)
                       (opt_currentPageIndex options) rows;
             isLoading := false |}
      | Throw _ => {| data := []; isLoading := false |}
      end
  end.

Definition SpecShared : Shared := {|
  MetricsExplorerRow := SpecRow;
  MetricsByField := PodMetricsField → option string;
  MetricsExplorerOptions := MetricsQueryOptions * string;
  Timerange := number * number;
  FilterClauseDsl := string;
  FetchEnv := SpecEnv;
  NodeMetricsTableData := list;
  createMetricByFieldLookup := spec_createMetricByFieldLookup;
  makeUnpackMetric := spec_makeUnpackMetric;
  averageOfValues := spec_averageOfValues;
  scaleUpPercentage := spec_scaleUpPercentage;
  metricsToApiOptions := spec_metricsToApiOptions;
  useInfrastructureNodeMetrics := spec_useInfrastructureNodeMetrics;
|}.
End spec_hook.

(** The rows in the order the series came. *)
Definition asFetched (T : Type) (_ : SortState.t) (_ : number) (rows : list T) : list T := rows.

(** ** Sample data *)

Definition sampleRow (t : Z) (startTime cpu memory : option number) : SpecRow := {|
  timestamp := num t;
  metrics :=
    {[ "kubernetes.pod.start_time" := startTime;
       "kubernetes.pod.cpu.usage.limit.pct" := cpu;
       "kubernetes.pod.memory.usage.bytes" := memory ]};
|}.

Definition sampleSeries : MetricsExplorerSeries SpecRow := {|
  keys := Some ["uid-1"; "pod-a"];
  rows := [ sampleRow 1 (Some (num 100)) (Some (frac 1 10)) (Some (num 2000000));
            sampleRow 2 None None None;
            sampleRow 3 (Some (num 500)) (Some (frac 3 10)) (Some (num 4000000)) ];
|}.

Definition sampleShared : Shared := SpecShared asFetched.

Definition emptySeries : MetricsExplorerSeries SpecRow :=
  {| keys := Some ["uid-1"; "pod-a"]; rows := [] |}.

(** A pod that reports its CPU usage only. *)
Definition cpuOnlySeries : MetricsExplorerSeries SpecRow := {|
  keys := Some ["uid-2"];
  rows := [ sampleRow 1 None (Some (frac 1 10)) None;
            sampleRow 2 None (Some (frac 3 10)) None ];
|}.

Ltac number_eq := apply Qc_is_canon; vm_compute; reflexivity.

(** * The field tabs of a data view

    [refreshFilters] of [edit_index_pattern/tabs/tabs.tsx]. *)

Module Tabs.

(** The members of a [DataViewField] that [refreshFilters] reads:
    [scripted] is a boolean, [lang] and [esTypes] may be undefined. *)
Record DataViewField : Type := {
  scripted : bool;
  lang : option string;
  type : string;
  esTypes : option (list string);
}.

Section refresh_filters.
Context {EuiSelectOptions : Type}.

(** [convertToEuiSelectOption] of [./utils], a module that is not part of
    the sources at hand: [refreshFilters] is defined for every
    implementation. *)
Variable convertToEuiSelectOption : list string → string → EuiSelectOptions.

(** [refreshFilters()], where [fields] is what
    [indexPattern.fields.getAll()] returns.  The result is the pair of
    values handed to [setIndexedFieldType] and to
    [setScriptedFieldLanguages].  A string is truthy when it is neither
    undefined nor empty; an array is truthy when it is not undefined. *)
Definition refreshFilters (fields : list DataViewField)
    : EuiSelectOptions * EuiSelectOptions :=
  let '(tempIndexedFieldTypes, tempScriptedFieldLanguages) :=
    foldl
      (λ '(tempIndexedFieldTypes, tempScriptedFieldLanguages) field,
         if scripted field then
           match lang field with
           | Some l =>
               if bool_decide (l ≠ "") then
                 (tempIndexedFieldTypes, tempScriptedFieldLanguages ++ [l])
               else (tempIndexedFieldTypes, tempScriptedFieldLanguages)
           | None => (tempIndexedFieldTypes, tempScriptedFieldLanguages)
           end
         else
           let tempIndexedFieldTypes :=
             if bool_decide (type field = "conflict") then
               tempIndexedFieldTypes ++ ["conflict"]
             else tempIndexedFieldTypes in
           let tempIndexedFieldTypes :=
             match esTypes field with
             | Some items =>
                 foldl (λ types item, types ++ [item]) tempIndexedFieldTypes items
             | None => tempIndexedFieldTypes
             end in
           (tempIndexedFieldTypes, tempScriptedFieldLanguages))
      ([], []) fields in
  (convertToEuiSelectOption tempIndexedFieldTypes "indexedFiledTypes",
   convertToEuiSelectOption tempScriptedFieldLanguages "scriptedFieldLanguages").

End refresh_filters.

(** The two arrays themselves: [refreshFilters] with a conversion that
    keeps the array it is given. *)
Definition collectedFilters (fields : list DataViewField) : list string * list string :=
  refreshFilters (λ values _, values) fields.

(** What one field adds to the indexed field types: nothing when it is
    scripted, else "conflict" when that is its type, then its [esTypes]. *)
Definition indexedTypesOf (field : DataViewField) : list string :=
  if scripted field then []
  else (if bool_decide (type field = "conflict") then ["conflict"] else [])
         ++ default [] (esTypes field).

(** What one field adds to the scripted field languages: its language
    when it is scripted and the language is a non-empty string. *)
Definition scriptedLanguageOf (field : DataViewField) : option string :=
  if scripted field then
    l ← lang field; if bool_decide (l ≠ "") then Some l else None
  else None.

End Tabs.

(** * Removing a data view

    [removePattern] of [edit_index_pattern/edit_index_pattern.tsx]. *)

Module EditIndexPattern.

(** An element of what [dataViews.getIdsWithTitle()] resolves to. *)
Record IdWithTitle : Type := { id : string; title : string }.

(** The calls the function makes on the services it is given. *)
Inductive Call : Type :=
  | OpenConfirm (message : string)
  | GetIdsWithTitle
  | UiSettingsRemove (key : string)
  | UiSettingsSet (key value : string)
  | DataViewsDelete (id : string)
  | HistoryPush (path : string).

(** How the services answer: what the confirmation dialog and
    [getIdsWithTitle] resolve to ([None] when the promise is rejected) and
    whether the promise of [dataViews.delete] is fulfilled. *)
Record Responses : Type := {
  isConfirmed : option bool;
  indexPatterns : option (list IdWithTitle);
  deleteFulfilled : bool;
}.

(** A run: the calls made, in order, and the result, [None] when the run
    ended with a rejected promise. *)
Definition Run (A : Type) : Type := list Call * option A.

Global Instance Run_ret : MRet Run := λ A a, ([], Some a).
Global Instance Run_bind : MBind Run := λ A B k m,
  match m with
  | (calls, Some a) => let '(calls', b) := k a in (calls ++ calls', b)
  | (calls, None) => (calls, None)
  end.

(** A call and its answer. *)
Definition call {A : Type} (c : Call) (answer : option A) : Run A := ([c], answer).

(** [if (s)] on a string that may be undefined. *)
Definition truthy (s : option string) : option string :=
  match s with
  | Some s => if bool_decide (s ≠ "") then Some s else None
  | None => None
  end.

Section remove_pattern.
(** [indexPattern.id] and the [defaultIndex] state of the component. *)
Variables (indexPattern_id : option string) (defaultIndex : string).
Variable services : Responses.

(** The inner [async function doRemove()].  The promise chained on
    [dataViews.delete] is not awaited; its callback is the last thing to
    run. *)
Definition doRemove : Run unit :=
  _ ← (if bool_decide (indexPattern_id = Some defaultIndex) then
         indexPatterns ← call GetIdsWithTitle (indexPatterns services);
         _ ← call (UiSettingsRemove "defaultIndex") (Some ());
         let otherPatterns :=
           filter (λ pattern, Some (id pattern) ≠ indexPattern_id) indexPatterns in
         if bool_decide (length otherPatterns ≠ 0%nat) then
           match otherPatterns !! 0%nat with
           | Some pattern => call (UiSettingsSet "defaultIndex" (id pattern)) (Some ())
           | None => ([], None)
           end
         else mret ()
       else mret ());
  match truthy indexPattern_id with
  | Some patternId =>
      _ ← call (DataViewsDelete patternId) (Some ());
      if deleteFulfilled services then call (HistoryPush "") (Some ()) else mret ()
  | None => mret ()
  end.

(** [removePattern()]: the calls it leads to. *)
Definition removePattern : list Call :=
  OpenConfirm "" ::
  match isConfirmed services with
  | Some true => doRemove.1
  | _ => []
  end.

End remove_pattern.

End EditIndexPattern.

(** Two data views, the first of them the default one, and services
    that confirm and succeed. *)
Definition sampleServices : EditIndexPattern.Responses := {|
  EditIndexPattern.isConfirmed := Some true;
  EditIndexPattern.indexPatterns :=
    Some [ {| EditIndexPattern.id := "logs"; EditIndexPattern.title := "logs-*" |};
           {| EditIndexPattern.id := "metrics"; EditIndexPattern.title := "metrics-*" |} ];
  EditIndexPattern.deleteFulfilled := true;
|}.

(** The same services when the user dismisses the dialog, and when the
    list of data views cannot be fetched. *)
Definition decliningServices : EditIndexPattern.Responses := {|
  EditIndexPattern.isConfirmed := Some false;
  EditIndexPattern.indexPatterns := EditIndexPattern.indexPatterns sampleServices;
  EditIndexPattern.deleteFulfilled := true;
|}.

Definition failingServices : EditIndexPattern.Responses := {|
  EditIndexPattern.isConfirmed := Some true;
  EditIndexPattern.indexPatterns := None;
  EditIndexPattern.deleteFulfilled := true;
|}.

(** The sample series with a third key. *)
Definition sampleSeriesThreeKeys : MetricsExplorerSeries SpecRow :=
  {| keys := Some ["uid-1"; "pod-a"; "default"]; rows := rows sampleSeries |}.

(** A render of the hook: its arguments and a request that succeeded. *)
Definition sampleProps : UseNodeMetricsTableOptions (number * number) string :=
  {| timerange := (num 0, num 1000); filterClauseDsl := "kubernetes.pod.name: *" |}.

Definition sampleEnv : SpecEnv :=
  {| outcome := Ready [sampleSeries; cpuOnlySeries]; clock := num 1000 |}.

(** ** Facts about the transform *)

Section transform_facts.
Context `{Shared}.

Lemma pushUnlessNull_app values value :
  pushUnlessNull values value = values ++ option_list value.
Proof. destruct value; simpl; [done | by rewrite app_nil_r]. Qed.

Lemma omap_cons_option_list {A B} (f : A → option B) x l :
  omap f (x :: l) = option_list (f x) ++ omap f l.
Proof. simpl. by destruct (f x). Qed.

Lemma collectMetricValues_from acc1 acc2 acc3 rows :
  foldl
    (λ '(startTimeValues, averageCpuUsagePercentValues,
          averageMemoryUsageMegabytesValues) row,
       let '(startTime, averageCpuUsagePercent, averageMemoryUsageMegabytes) :=
         unpackMetrics row in
       (pushUnlessNull startTimeValues startTime,
        pushUnlessNull averageCpuUsagePercentValues averageCpuUsagePercent,
        pushUnlessNull averageMemoryUsageMegabytesValues averageMemoryUsageMegabytes))
    (acc1, acc2, acc3) rows
  = (acc1 ++ nonNullValues kubernetes_pod_start_time rows,
     acc2 ++ nonNullValues kubernetes_pod_cpu_usage_limit_pct rows,
     acc3 ++ nonNullValues kubernetes_pod_memory_usage_bytes rows).
Proof.
  revert acc1 acc2 acc3.
  induction rows as [|row rows IH]; intros acc1 acc2 acc3.
  - simpl. by rewrite !app_nil_r.
  - unfold nonNullValues in *. rewrite !omap_cons_option_list.
    cbn [foldl]. unfold unpackMetrics at 2. cbv beta iota.
    rewrite IH, !pushUnlessNull_app, <- !app_assoc. done.
Qed.

Lemma collectMetricValues_nonNull rows :
  collectMetricValues rows
  = (nonNullValues kubernetes_pod_start_time rows,
     nonNullValues kubernetes_pod_cpu_usage_limit_pct rows,
     nonNullValues kubernetes_pod_memory_usage_bytes rows).
Proof. unfold collectMetricValues. by rewrite collectMetricValues_from. Qed.

Lemma length_ne_0_decide {A} (l : list A) :
  bool_decide (length l ≠ 0%nat) = match l with [] => false | _ => true end.
Proof. by destruct l. Qed.

(** What [calculateMetricAverages] computes, in terms of the non-null
    values of each metric. *)
Lemma calculateMetricAverages_run rows now :
  calculateMetricAverages rows now
  = Normal
      ((λ startTime, now - startTime)%Qc
         <$> last (nonNullValues kubernetes_pod_start_time rows),
       match nonNullValues kubernetes_pod_cpu_usage_limit_pct rows with
       | [] => None
       | values => Some (scaleUpPercentage (averageOfValues values))
       end,
       match nonNullValues kubernetes_pod_memory_usage_bytes rows with
       | [] => None
       | values =>
           Some (Math_floor (averageOfValues values / num 1000000)%Qc)
       end).
Proof.
  unfold calculateMetricAverages. rewrite collectMetricValues_nonNull.
  rewrite !length_ne_0_decide. unfold at_minus_1.
  destruct (nonNullValues kubernetes_pod_start_time rows) as [|s ss];
    destruct (nonNullValues kubernetes_pod_cpu_usage_limit_pct rows) as [|c cs];
    destruct (nonNullValues kubernetes_pod_memory_usage_bytes rows) as [|m ms];
    reflexivity.
Qed.

(** What [seriesToPodNodeMetricsRow] computes: it completes normally on
    every series, with these fields. *)
Lemma seriesToPodNodeMetricsRow_run (series : MetricsExplorerSeries MetricsExplorerRow) now :
  seriesToPodNodeMetricsRow series now
  = Normal {|
      id := default [] (keys series) !! 0%nat;
      name := default [] (keys series) !! 1%nat;
      uptime :=
        (λ startTime, now - startTime)%Qc
          <$> last (nonNullValues kubernetes_pod_start_time (rows series));
      averageCpuUsagePercent :=
        match nonNullValues kubernetes_pod_cpu_usage_limit_pct (rows series) with
        | [] => None
        | values => Some (scaleUpPercentage (averageOfValues values))
        end;
      averageMemoryUsageMegabytes :=
        match nonNullValues kubernetes_pod_memory_usage_bytes (rows series) with
        | [] => None
        | values =>
            Some (Math_floor (averageOfValues values / num 1000000)%Qc)
        end;
    |}.
Proof.
  unfold seriesToPodNodeMetricsRow.
  assert (Hd : destructure2 (keys series ?? Some []) now
               = Normal (default [] (keys series) !! 0%nat,
                         default [] (keys series) !! 1%nat)).
  { by destruct (keys series). }
  unfold mbind, JS_bind at 1. rewrite Hd. clear Hd.
  destruct (rows series) as [|row rest] eqn:Hrows.
  - reflexivity.
  - rewrite bool_decide_eq_false_2 by done.
    unfold mbind, JS_bind. by rewrite calculateMetricAverages_run.
Qed.

Lemma nonNullValues_nil f rows :
  nonNullValues f rows = [] ↔ Forall (λ row, unpackMetric row f = None) rows.
Proof.
  unfold nonNullValues. induction rows as [|row rows IH]; simpl.
  - split; [constructor | done].
  - destruct (unpackMetric row f) eqn:E.
    + split; [done | by inversion 1; simplify_eq].
    + rewrite IH. split; [by constructor | by inversion 1].
Qed.
End transform_facts.

(** ** Properties of the transform, for every implementation of the
    shared modules *)

Section transform_claims.
Context `{Shared}.
Implicit Types (series : MetricsExplorerSeries MetricsExplorerRow) (now : number).

(** C1. A series with no rows is turned, without an error, into the row
    whose [uptime], [averageCpuUsagePercent] and
    [averageMemoryUsageMegabytes] are null and whose [id] and [name] are
    the first and the second element of the series' keys. *)
Theorem empty_series_gives_row_without_metrics series now :
  rows series = [] →
  seriesToPodNodeMetricsRow series now
  = Normal {|
      id := default [] (keys series) !! 0%nat;
      name := default [] (keys series) !! 1%nat;
      uptime := None;
      averageCpuUsagePercent := None;
      averageMemoryUsageMegabytes := None;
    |}.
Proof.
  intros Hrows. rewrite seriesToPodNodeMetricsRow_run, Hrows. reflexivity.
Qed.

(** C2. When the rows of a series hold at least one start-time value,
    [uptime] is the current time minus the last of them in row order (for
    the values 100 and 500, the current time minus 500); when they hold
    none, [uptime] is null. *)
Theorem uptime_is_now_minus_last_start_time series now :
  (∀ earlier latest,
      nonNullValues kubernetes_pod_start_time (rows series) = earlier ++ [latest] →
      uptime <$> seriesToPodNodeMetricsRow series now
      = Normal (Some (now - latest)%Qc))
  ∧ (nonNullValues kubernetes_pod_start_time (rows series)
       = [num 100; num 500] →
     uptime <$> seriesToPodNodeMetricsRow series now
     = Normal (Some (now - num 500)%Qc))
  ∧ (nonNullValues kubernetes_pod_start_time (rows series) = [] →
     uptime <$> seriesToPodNodeMetricsRow series now = Normal None).
Proof.
  rewrite seriesToPodNodeMetricsRow_run. cbn [fmap Completion_fmap uptime].
  split; [|split].
  - intros earlier latest ->. by rewrite last_snoc.
  - by intros ->.
  - by intros ->.
Qed.

(** C6. Each of the three metric fields of the row is null exactly when
    no row of the series holds a value of that metric, whatever the other
    two metrics hold; the transform completes normally in every case. *)
Theorem metric_null_iff_no_value series now :
  ∃ row,
    seriesToPodNodeMetricsRow series now = Normal row
    ∧ (uptime row = None
       ↔ Forall (λ r, unpackMetric r kubernetes_pod_start_time = None) (rows series))
    ∧ (averageCpuUsagePercent row = None
       ↔ Forall (λ r, unpackMetric r kubernetes_pod_cpu_usage_limit_pct = None)
            (rows series))
    ∧ (averageMemoryUsageMegabytes row = None
       ↔ Forall (λ r, unpackMetric r kubernetes_pod_memory_usage_bytes = None)
            (rows series)).
Proof.
  eexists. split; [apply seriesToPodNodeMetricsRow_run|].
  cbn [uptime averageCpuUsagePercent averageMemoryUsageMegabytes].
  rewrite <- !nonNullValues_nil.
  split; [|split].
  - rewrite fmap_None, last_None. done.
  - by destruct (nonNullValues kubernetes_pod_cpu_usage_limit_pct (rows series)).
  - by destruct (nonNullValues kubernetes_pod_memory_usage_bytes (rows series)).
Qed.

(** C10. The transform completes normally on every series; when the keys
    are absent or empty, [id] and [name] are undefined, and when there is
    one key, [id] is that key and [name] is undefined. *)
Theorem missing_keys_give_undefined_id_name series now :
  ∃ row,
    seriesToPodNodeMetricsRow series now = Normal row
    ∧ (keys series = None → id row = None ∧ name row = None)
    ∧ (keys series = Some [] → id row = None ∧ name row = None)
    ∧ (∀ key, keys series = Some [key] → id row = Some key ∧ name row = None).
Proof.
  eexists. split; [apply seriesToPodNodeMetricsRow_run|].
  cbn [id name]. split; [|split].
  - by intros ->.
  - by intros ->.
  - by intros key ->.
Qed.

(** C5, as amended. Two applications of the transform to one series that
    read the same current time give equal rows.  Under any two clock
    readings the rows agree on [id], [name], [averageCpuUsagePercent] and
    [averageMemoryUsageMegabytes], and they are equal when the series
    holds no start-time value; when it holds one, each [uptime] is its own
    clock reading minus the last start-time value. *)
Theorem recomputed_row_equal_up_to_clock series now1 now2 :
  ∃ row1 row2,
    seriesToPodNodeMetricsRow series now1 = Normal row1
    ∧ seriesToPodNodeMetricsRow series now2 = Normal row2
    ∧ (now1 = now2 → row1 = row2)
    ∧ id row1 = id row2
    ∧ name row1 = name row2
    ∧ averageCpuUsagePercent row1 = averageCpuUsagePercent row2
    ∧ averageMemoryUsageMegabytes row1 = averageMemoryUsageMegabytes row2
    ∧ (nonNullValues kubernetes_pod_start_time (rows series) = [] → row1 = row2)
    ∧ (∀ earlier latest,
         nonNullValues kubernetes_pod_start_time (rows series) = earlier ++ [latest] →
         uptime row1 = Some (now1 - latest)%Qc
         ∧ uptime row2 = Some (now2 - latest)%Qc).
Proof.
  do 2 eexists.
  split; [apply seriesToPodNodeMetricsRow_run|].
  split; [apply seriesToPodNodeMetricsRow_run|].
  cbn [id name uptime averageCpuUsagePercent averageMemoryUsageMegabytes].
  repeat split.
  - by intros ->.
  - by intros ->.
  - match goal with Hv : _ = _ ++ [_] |- _ => by rewrite Hv, last_snoc end.
  - match goal with Hv : _ = _ ++ [_] |- _ => by rewrite Hv, last_snoc end.
Qed.

End transform_claims.

(** ** Properties of the hook, for every implementation of the shared
    modules *)

Section hook_claims.
Context `{Shared}.
Implicit Types (props : UseNodeMetricsTableOptions Timerange FilterClauseDsl)
  (cells : HookCells) (env : FetchEnv).

(** C8. The object returned by the hook has the properties [data],
    [isLoading], [currentPageIndex], [setCurrentPageIndex], [sortState],
    [setSortState] and [timerange], each once, and no other; its
    [timerange] is the one the hook was given. *)
Theorem hook_returns_seven_properties props cells env :
  ownKeys (usePodMetricsTable props cells env)
  ≡ₚ ["data"; "isLoading"; "currentPageIndex"; "setCurrentPageIndex";
      "sortState"; "setSortState"; "timerange"]
  ∧ NoDup (ownKeys (usePodMetricsTable props cells env))
  ∧ getProp (usePodMetricsTable props cells env) "timerange"
    = Some (VTimerange (timerange props)).
Proof.
  split; [|split].
  - cbn. solve_Permutation.
  - cbn. apply (bool_decide_unpack _). vm_compute. exact I.
  - reflexivity.
Qed.

(** C9. On the first render, before a setter has been called, the hook
    returns [currentPageIndex] 0 and [sortState] with field
    [averageCpuUsagePercent] and direction [desc]. *)
Theorem hook_initial_page_and_sort props env :
  getProp (usePodMetricsTable props firstRender env) "currentPageIndex"
  = Some (VNumber (num 0))
  ∧ getProp (usePodMetricsTable props firstRender env) "sortState"
    = Some (VSortState (SortState.mk "averageCpuUsagePercent" desc)).
Proof. split; reflexivity. Qed.

(** X7. The values stored by the setters the hook returns are the ones a
    later render returns as [currentPageIndex] and [sortState]. *)
Lemma hook_state_after_setters props cells env page sort setPage setSort :
  getProp (usePodMetricsTable props cells env) "setCurrentPageIndex"
    = Some (VSetCurrentPageIndex setPage) →
  getProp (usePodMetricsTable props cells env) "setSortState"
    = Some (VSetSortState setSort) →
  getProp (usePodMetricsTable props (setSort sort (setPage page cells)) env)
      "currentPageIndex" = Some (VNumber page)
  ∧ getProp (usePodMetricsTable props (setSort sort (setPage page cells)) env)
      "sortState" = Some (VSortState sort).
Proof.
  cbn. intros [= <-] [= <-]. split; reflexivity.
Qed.

End hook_claims.

(** ** Properties that rest on the reading of the shared modules *)

Lemma num_eq_0 z : num z = num 0 → z = 0%Z.
Proof.
  unfold num. intros Heq. apply Q2Qc_eq_iff in Heq.
  unfold Qeq in Heq. simpl in Heq. lia.
Qed.

Lemma num_length_ne_0 {A} (l : list A) : l ≠ [] → num (Z.of_nat (length l)) ≠ num 0.
Proof.
  intros Hl Heq. apply num_eq_0 in Heq. destruct l; [done | simpl in Heq; lia].
Qed.

(** The mean times the number of values is their sum. *)
Lemma spec_averageOfValues_mean values :
  values ≠ [] →
  (spec_averageOfValues values * num (Z.of_nat (length values)))%Qc = sumOfValues values.
Proof.
  intros Hv. unfold spec_averageOfValues.
  rewrite Qcmult_comm. apply Qcmult_div_r. by apply num_length_ne_0.
Qed.

(** [Math.floor(x)] is the integer [z] with [z ≤ x < z + 1]. *)
Lemma Math_floor_bounds (x : number) :
  (num (Qfloor x) ≤ x)%Qc ∧ (x < num (Qfloor x + 1))%Qc.
Proof.
  unfold num, Qcle, Qclt. cbn [this Q2Qc]. rewrite !Qred_correct.
  split; [apply Qfloor_le | apply Qlt_floor].
Qed.

Section spec_claims.
Variable sortAndPaginate : ∀ T : Type, SortState.t → number → list T → list T.
Implicit Types (series : MetricsExplorerSeries SpecRow) (now : number).

Local Abbreviation shared := (SpecShared sortAndPaginate).
Local Abbreviation transform := (@seriesToPodNodeMetricsRow shared).
Local Abbreviation valuesOf := (@nonNullValues shared).

(** C3. When the rows of a series hold at least one CPU value,
    [averageCpuUsagePercent] is the arithmetic mean of these values
    multiplied by 100 (for the values 0.1 and 0.3 it is 20); when they
    hold none, it is null. *)
Theorem cpu_percent_is_mean_times_100 series now :
  (valuesOf kubernetes_pod_cpu_usage_limit_pct (rows series) ≠ [] →
   ∃ mean,
     (mean * num (Z.of_nat
        (length (valuesOf kubernetes_pod_cpu_usage_limit_pct (rows series)))))%Qc
     = sumOfValues (valuesOf kubernetes_pod_cpu_usage_limit_pct (rows series))
     ∧ averageCpuUsagePercent <$> transform series now
       = Normal (Some (mean * num 100)%Qc))
  ∧ (valuesOf kubernetes_pod_cpu_usage_limit_pct (rows series)
       = [frac 1 10; frac 3 10] →
     averageCpuUsagePercent <$> transform series now = Normal (Some (num 20)))
  ∧ (valuesOf kubernetes_pod_cpu_usage_limit_pct (rows series) = [] →
     averageCpuUsagePercent <$> transform series now = Normal None).
Proof.
  rewrite seriesToPodNodeMetricsRow_run.
  cbn [fmap Completion_fmap averageCpuUsagePercent].
  change (@MetricsExplorerRow shared) with SpecRow.
  split; [|split].
  - intros Hv. exists (spec_averageOfValues
      (valuesOf kubernetes_pod_cpu_usage_limit_pct (rows series))).
    split; [by apply spec_averageOfValues_mean|].
    destruct (valuesOf kubernetes_pod_cpu_usage_limit_pct (rows series));
      [congruence | reflexivity].
  - intros ->. apply (f_equal Normal), (f_equal Some), Qc_is_canon. reflexivity.
  - by intros ->.
Qed.

(** C4. When the rows of a series hold at least one memory value,
    [averageMemoryUsageMegabytes] is the floor of the arithmetic mean of
    these byte values divided by 1,000,000 (for the values 2,000,000 and
    4,000,000 it is 3); when they hold none, it is null. *)
Theorem memory_megabytes_is_floor_of_mean series now :
  (valuesOf kubernetes_pod_memory_usage_bytes (rows series) ≠ [] →
   ∃ (mean : number) (megabytes : Z),
     (mean * num (Z.of_nat
        (length (valuesOf kubernetes_pod_memory_usage_bytes (rows series)))))%Qc
     = sumOfValues (valuesOf kubernetes_pod_memory_usage_bytes (rows series))
     ∧ (num megabytes ≤ mean / num 1000000)%Qc
     ∧ (mean / num 1000000 < num (megabytes + 1))%Qc
     ∧ averageMemoryUsageMegabytes <$> transform series now
       = Normal (Some (num megabytes)))
  ∧ (valuesOf kubernetes_pod_memory_usage_bytes (rows series)
       = [num 2000000; num 4000000] →
     averageMemoryUsageMegabytes <$> transform series now = Normal (Some (num 3)))
  ∧ (valuesOf kubernetes_pod_memory_usage_bytes (rows series) = [] →
     averageMemoryUsageMegabytes <$> transform series now = Normal None).
Proof.
  rewrite seriesToPodNodeMetricsRow_run.
  cbn [fmap Completion_fmap averageMemoryUsageMegabytes].
  change (@MetricsExplorerRow shared) with SpecRow.
  split; [|split].
  - intros Hv.
    set (values := valuesOf kubernetes_pod_memory_usage_bytes (rows series)) in *.
    exists (spec_averageOfValues values),
      (Qfloor (spec_averageOfValues values / num 1000000)%Qc).
    split; [by apply spec_averageOfValues_mean|].
    split; [apply Math_floor_bounds|].
    split; [apply Math_floor_bounds|].
    clearbody values. destruct values; [congruence | reflexivity].
  - intros ->. apply (f_equal Normal), (f_equal Some), Qc_is_canon. reflexivity.
  - by intros ->.
Qed.

(** C7. A request that failed reaches the caller of the hook as
    [isLoading] false (it was true while the request was pending) with no
    rows in [data]; the returned object has no property besides the seven
    of a successful render, none of them an error. *)
Theorem failed_query_is_no_data
    (props : UseNodeMetricsTableOptions (number * number) string)
    (cells : HookCells) (time : number) :
  getProp (@usePodMetricsTable shared props cells
             {| outcome := Fetching; clock := time |}) "isLoading"
  = Some (@VBoolean shared true)
  ∧ getProp (@usePodMetricsTable shared props cells
               {| outcome := Failed; clock := time |}) "isLoading"
    = Some (@VBoolean shared false)
  ∧ getProp (@usePodMetricsTable shared props cells
               {| outcome := Failed; clock := time |}) "data"
    = Some (@VData shared [])
  ∧ ownKeys (@usePodMetricsTable shared props cells
               {| outcome := Failed; clock := time |})
    = ownKeys (@usePodMetricsTable shared props cells
                 {| outcome := Ready []; clock := time |})
  ∧ getProp (@usePodMetricsTable shared props cells
               {| outcome := Failed; clock := time |}) "error" = None
  ∧ ∀ key,
      key ∉ ["data"; "isLoading"; "currentPageIndex"; "setCurrentPageIndex";
             "sortState"; "setSortState"; "timerange"] →
      getProp (@usePodMetricsTable shared props cells
                 {| outcome := Failed; clock := time |}) key = None.
Proof.
  repeat split.
  intros key Hkey. cbn.
  repeat (rewrite bool_decide_eq_false_2; [|intros <-; apply Hkey; set_solver]).
  reflexivity.
Qed.

End spec_claims.

(** ** The properties on sample data *)

(** The sample series at the clock reading 1000. *)
Lemma sample_row :
  @seriesToPodNodeMetricsRow sampleShared sampleSeries (num 1000)
  = Normal {| id := Some "uid-1"; name := Some "pod-a";
              uptime := Some (num 500);
              averageCpuUsagePercent := Some (num 20);
              averageMemoryUsageMegabytes := Some (num 3) |}.
Proof.
  rewrite seriesToPodNodeMetricsRow_run.
  apply (f_equal Normal). f_equal; apply (f_equal Some); number_eq.
Qed.

(** C1 on a series with two keys and no rows. *)
Lemma empty_series_gives_row_without_metrics_witness :
  rows emptySeries = []
  ∧ @seriesToPodNodeMetricsRow sampleShared emptySeries (num 1000)
    = Normal {| id := Some "uid-1"; name := Some "pod-a"; uptime := None;
                averageCpuUsagePercent := None;
                averageMemoryUsageMegabytes := None |}.
Proof.
  split; [reflexivity|].
  exact (empty_series_gives_row_without_metrics (H := sampleShared)
           emptySeries (num 1000) eq_refl).
Defined.

(** C2 on the sample series: start times 100 and 500, clock 1000. *)
Lemma uptime_is_now_minus_last_start_time_witness :
  @nonNullValues sampleShared kubernetes_pod_start_time (rows sampleSeries)
  = [num 100] ++ [num 500]
  ∧ uptime <$> @seriesToPodNodeMetricsRow sampleShared sampleSeries (num 1000)
    = Normal (Some (num 1000 - num 500)%Qc).
Proof.
  split; [reflexivity|].
  apply (proj1 (uptime_is_now_minus_last_start_time (H := sampleShared)
                  sampleSeries (num 1000)) [num 100] (num 500)).
  reflexivity.
Defined.

(** C3 on the sample series: CPU values 0.1 and 0.3. *)
Lemma cpu_percent_is_mean_times_100_witness :
  @nonNullValues sampleShared kubernetes_pod_cpu_usage_limit_pct (rows sampleSeries)
  = [frac 1 10; frac 3 10]
  ∧ averageCpuUsagePercent
      <$> @seriesToPodNodeMetricsRow sampleShared sampleSeries (num 1000)
    = Normal (Some (num 20)).
Proof.
  split; [reflexivity|].
  apply (proj1 (proj2 (cpu_percent_is_mean_times_100 asFetched
                         sampleSeries (num 1000)))).
  reflexivity.
Defined.

(** C4 on the sample series: 2,000,000 and 4,000,000 bytes. *)
Lemma memory_megabytes_is_floor_of_mean_witness :
  @nonNullValues sampleShared kubernetes_pod_memory_usage_bytes (rows sampleSeries)
  = [num 2000000; num 4000000]
  ∧ averageMemoryUsageMegabytes
      <$> @seriesToPodNodeMetricsRow sampleShared sampleSeries (num 1000)
    = Normal (Some (num 3)).
Proof.
  split; [reflexivity|].
  apply (proj1 (proj2 (memory_megabytes_is_floor_of_mean asFetched
                         sampleSeries (num 1000)))).
  reflexivity.
Defined.

(** C6 on a series that reports CPU usage only. *)
Lemma metric_null_iff_no_value_witness :
  Forall (λ r, @unpackMetric sampleShared r kubernetes_pod_start_time = None)
    (rows cpuOnlySeries)
  ∧ ∃ row,
      @seriesToPodNodeMetricsRow sampleShared cpuOnlySeries (num 1000) = Normal row
      ∧ uptime row = None
      ∧ averageCpuUsagePercent row ≠ None.
Proof.
  assert (Hstart : Forall
            (λ r, @unpackMetric sampleShared r kubernetes_pod_start_time = None)
            (rows cpuOnlySeries)).
  { repeat constructor. }
  split; [exact Hstart|].
  destruct (metric_null_iff_no_value (H := sampleShared) cpuOnlySeries (num 1000))
    as (row & Hrun & Huptime & Hcpu & _).
  exists row. split; [exact Hrun|]. split; [by apply Huptime|].
  intros Hnone. apply Hcpu in Hnone. by inversion Hnone.
Defined.

(** C10 on a series with a single key. *)
Lemma missing_keys_give_undefined_id_name_witness :
  keys cpuOnlySeries = Some ["uid-2"]
  ∧ ∃ row,
      @seriesToPodNodeMetricsRow sampleShared cpuOnlySeries (num 1000) = Normal row
      ∧ id row = Some "uid-2"
      ∧ name row = None.
Proof.
  split; [reflexivity|].
  destruct (missing_keys_give_undefined_id_name (H := sampleShared)
              cpuOnlySeries (num 1000)) as (row & Hrun & _ & _ & Hone).
  exists row. split; [exact Hrun|]. exact (Hone "uid-2" eq_refl).
Defined.

(** C5, as amended, on the sample series at the clock readings 1000 and
    2000. *)
Lemma recomputed_row_equal_up_to_clock_witness :
  @nonNullValues sampleShared kubernetes_pod_start_time (rows sampleSeries)
  = [num 100] ++ [num 500]
  ∧ ∃ row1 row2,
      @seriesToPodNodeMetricsRow sampleShared sampleSeries (num 1000) = Normal row1
      ∧ @seriesToPodNodeMetricsRow sampleShared sampleSeries (num 2000) = Normal row2
      ∧ averageCpuUsagePercent row1 = averageCpuUsagePercent row2
      ∧ averageMemoryUsageMegabytes row1 = averageMemoryUsageMegabytes row2
      ∧ uptime row1 = Some (num 1000 - num 500)%Qc
      ∧ uptime row2 = Some (num 2000 - num 500)%Qc.
Proof.
  split; [reflexivity|].
  destruct (recomputed_row_equal_up_to_clock (H := sampleShared)
              sampleSeries (num 1000) (num 2000))
    as (row1 & row2 & Hrun1 & Hrun2 & _ & _ & _ & Hcpu & Hmem & _ & Huptime).
  exists row1, row2.
  split; [exact Hrun1|]. split; [exact Hrun2|].
  split; [exact Hcpu|]. split; [exact Hmem|].
  exact (Huptime [num 100] (num 500) eq_refl).
Defined.

(** C5, the counterexample. The same series transformed at the clock
    readings 1000 and 2000 gives the uptimes 500 and 1500: the two rows
    differ. *)
Lemma recomputed_row_differs_when_clock_moves :
  uptime <$> @seriesToPodNodeMetricsRow sampleShared sampleSeries (num 1000)
  = Normal (Some (num 500))
  ∧ uptime <$> @seriesToPodNodeMetricsRow sampleShared sampleSeries (num 2000)
    = Normal (Some (num 1500))
  ∧ @seriesToPodNodeMetricsRow sampleShared sampleSeries (num 1000)
    ≠ @seriesToPodNodeMetricsRow sampleShared sampleSeries (num 2000).
Proof.
  assert (H1 : uptime <$> @seriesToPodNodeMetricsRow sampleShared sampleSeries (num 1000)
               = Normal (Some (num 500))).
  { rewrite seriesToPodNodeMetricsRow_run.
    apply (f_equal Normal), (f_equal Some). number_eq. }
  assert (H2 : uptime <$> @seriesToPodNodeMetricsRow sampleShared sampleSeries (num 2000)
               = Normal (Some (num 1500))).
  { rewrite seriesToPodNodeMetricsRow_run.
    apply (f_equal Normal), (f_equal Some). number_eq. }
  split; [exact H1 | split; [exact H2 |]].
  intros Heq. rewrite Heq, H2 in H1.
  vm_compute in H1. discriminate H1.
Qed.

(** * Further properties of the transform *)

Section transform_extras.
Context `{Shared}.
Implicit Types (series : MetricsExplorerSeries MetricsExplorerRow) (now : number)
  (rows : list MetricsExplorerRow).

Lemma omap_filter_some {A B} (f : A → option B) (P : A → Prop)
    `{∀ x, Decision (P x)} (l : list A) :
  (∀ x, ¬ P x → f x = None) → omap f (filter P l) = omap f l.
Proof.
  intros Hnone. induction l as [|x l IH]; [done|].
  rewrite filter_cons. destruct (decide (P x)) as [HP|HP].
  - by rewrite !omap_cons_option_list, IH.
  - by rewrite omap_cons_option_list, (Hnone x HP).
Qed.

Lemma length_omap_le {A B} (f : A → option B) (l : list A) :
  (length (omap f l) ≤ length l)%nat.
Proof.
  induction l as [|x l IH]; [done|].
  rewrite omap_cons_option_list, length_app. destruct (f x); simpl; lia.
Qed.

(** X1. The values collected from two runs of rows, one after the other,
    are the values collected from the first followed by those collected
    from the second, for each of the three metrics. *)
Theorem collectMetricValues_of_appended_rows rows1 rows2 :
  collectMetricValues (rows1 ++ rows2)
  = ((collectMetricValues rows1).1.1 ++ (collectMetricValues rows2).1.1,
     (collectMetricValues rows1).1.2 ++ (collectMetricValues rows2).1.2,
     (collectMetricValues rows1).2 ++ (collectMetricValues rows2).2).
Proof.
  rewrite !collectMetricValues_nonNull. unfold nonNullValues.
  by rewrite !omap_app.
Qed.

(** X2. A value is collected for a metric exactly when some row holds it
    for that metric, and no more values are collected for a metric than
    there are rows. *)
Theorem collectMetricValues_sound_and_complete rows :
  (∀ v, v ∈ (collectMetricValues rows).1.1
        ↔ ∃ row, row ∈ rows ∧ unpackMetric row kubernetes_pod_start_time = Some v)
  ∧ (∀ v, v ∈ (collectMetricValues rows).1.2
          ↔ ∃ row, row ∈ rows
                   ∧ unpackMetric row kubernetes_pod_cpu_usage_limit_pct = Some v)
  ∧ (∀ v, v ∈ (collectMetricValues rows).2
          ↔ ∃ row, row ∈ rows
                   ∧ unpackMetric row kubernetes_pod_memory_usage_bytes = Some v)
  ∧ (length (collectMetricValues rows).1.1 ≤ length rows)%nat
  ∧ (length (collectMetricValues rows).1.2 ≤ length rows)%nat
  ∧ (length (collectMetricValues rows).2 ≤ length rows)%nat.
Proof.
  rewrite collectMetricValues_nonNull. unfold nonNullValues. cbn [fst snd].
  repeat split; try apply list_elem_of_omap; try apply length_omap_le;
    intros Hv; by apply list_elem_of_omap.
Qed.

(** X3. Rows that hold no value of any of the three metrics have no
    influence on the row computed for the series: dropping them gives the
    same result. *)
Theorem rows_without_values_are_ignored series now :
  seriesToPodNodeMetricsRow
    {| keys := keys series;
       rows := filter (λ row, unpackMetrics row ≠ (None, None, None)) (rows series) |}
    now
  = seriesToPodNodeMetricsRow series now.
Proof.
  rewrite !seriesToPodNodeMetricsRow_run. cbn [keys rows].
  unfold nonNullValues.
  rewrite !(omap_filter_some _ (λ row, unpackMetrics row ≠ (None, None, None)));
    [done | | |];
    intros row Hrow; apply dec_stable in Hrow; unfold unpackMetrics in Hrow;
    by simplify_eq.
Qed.

(** X4. The uptime is decided by the rows from the last one that holds a
    start time onwards: rows put in front of rows that hold a start time
    do not change it, and rows without a start time put behind do not
    change it either. *)
Theorem uptime_decided_by_last_start_time_row
    (keys1 keys2 : option (list string)) rows1 rows2 now :
  (nonNullValues kubernetes_pod_start_time rows2 ≠ [] →
   uptime <$> seriesToPodNodeMetricsRow
                {| keys := keys1; rows := rows1 ++ rows2 |} now
   = uptime <$> seriesToPodNodeMetricsRow {| keys := keys2; rows := rows2 |} now)
  ∧ (nonNullValues kubernetes_pod_start_time rows2 = [] →
     uptime <$> seriesToPodNodeMetricsRow
                  {| keys := keys1; rows := rows1 ++ rows2 |} now
     = uptime <$> seriesToPodNodeMetricsRow {| keys := keys2; rows := rows1 |} now).
Proof.
  rewrite !seriesToPodNodeMetricsRow_run.
  cbn [fmap Completion_fmap uptime rows]. unfold nonNullValues.
  rewrite omap_app, last_app. split.
  - intros Hne.
    destruct (last (omap (λ row, unpackMetric row kubernetes_pod_start_time) rows2))
      eqn:Hlast; [done|].
    apply last_None in Hlast. done.
  - by intros ->.
Qed.

(** X5. The [id] and [name] of the row come from the first two keys
    alone: series with the same rows whose keys agree on their first two
    elements (absent keys counting as no keys) give the same row. *)
Theorem row_depends_on_first_two_keys_only series1 series2 now :
  take 2 (default [] (keys series1)) = take 2 (default [] (keys series2)) →
  rows series1 = rows series2 →
  seriesToPodNodeMetricsRow series1 now = seriesToPodNodeMetricsRow series2 now.
Proof.
  intros Hkeys Hrows. rewrite !seriesToPodNodeMetricsRow_run, Hrows.
  rewrite <- (lookup_take_lt (default [] (keys series1)) 2 0) by lia.
  rewrite <- (lookup_take_lt (default [] (keys series1)) 2 1) by lia.
  rewrite Hkeys, !lookup_take_lt by lia. done.
Qed.

(** X6. The uptime is not clamped: it is negative when the last start time
    lies after the current time, and it is zero or more otherwise. *)
Theorem uptime_sign_follows_clock series now earlier latest :
  nonNullValues kubernetes_pod_start_time (rows series) = earlier ++ [latest] →
  ∃ u,
    uptime <$> seriesToPodNodeMetricsRow series now = Normal (Some u)
    ∧ ((now < latest)%Qc → (u < num 0)%Qc)
    ∧ ((latest ≤ now)%Qc → (num 0 ≤ u)%Qc).
Proof.
  intros Hvalues. exists (now - latest)%Qc.
  rewrite seriesToPodNodeMetricsRow_run. cbn [fmap Completion_fmap uptime].
  rewrite Hvalues, last_snoc. split; [done|].
  assert (Hzero : num 0 = (latest + - latest)%Qc).
  { rewrite Qcplus_opp_r. by apply Qc_is_canon. }
  unfold Qcminus. rewrite Hzero. split.
  - intros Hlt. by apply Qcplus_lt_mono_r.
  - intros Hle. by apply Qcplus_le_mono_r.
Qed.

End transform_extras.

(** * Properties of the filters of the field tabs *)

Lemma foldl_push {A} (acc items : list A) :
  foldl (λ types item, types ++ [item]) acc items = acc ++ items.
Proof.
  revert acc. induction items as [|item items IH]; intros acc; simpl.
  - by rewrite app_nil_r.
  - by rewrite IH, <- app_assoc.
Qed.

Lemma refreshFilters_fold (acc1 acc2 : list string) fields :
  foldl
    (λ '(tempIndexedFieldTypes, tempScriptedFieldLanguages) field,
       if Tabs.scripted field then
         match Tabs.lang field with
         | Some l =>
             if bool_decide (l ≠ "") then
               (tempIndexedFieldTypes, tempScriptedFieldLanguages ++ [l])
             else (tempIndexedFieldTypes, tempScriptedFieldLanguages)
         | None => (tempIndexedFieldTypes, tempScriptedFieldLanguages)
         end
       else
         let tempIndexedFieldTypes :=
           if bool_decide (Tabs.type field = "conflict") then
             tempIndexedFieldTypes ++ ["conflict"]
           else tempIndexedFieldTypes in
         let tempIndexedFieldTypes :=
           match Tabs.esTypes field with
           | Some items =>
               foldl (λ types item, types ++ [item]) tempIndexedFieldTypes items
           | None => tempIndexedFieldTypes
           end in
         (tempIndexedFieldTypes, tempScriptedFieldLanguages))
    (acc1, acc2) fields
  = (acc1 ++ fields ≫= Tabs.indexedTypesOf,
     acc2 ++ omap Tabs.scriptedLanguageOf fields).
Proof.
  revert acc1 acc2. induction fields as [|field fields IH]; intros acc1 acc2.
  - simpl. by rewrite !app_nil_r.
  - rewrite omap_cons_option_list. cbn [foldl mbind list_bind].
    unfold Tabs.indexedTypesOf at 1, Tabs.scriptedLanguageOf at 1.
    destruct (Tabs.scripted field).
    + destruct (Tabs.lang field) as [l|]; simpl.
      * destruct (bool_decide (l ≠ "")); rewrite IH; simpl;
          by rewrite ?app_nil_r, <- ?app_assoc.
      * rewrite IH. by rewrite ?app_nil_r.
    + cbv zeta.
      destruct (bool_decide (Tabs.type field = "conflict"));
        destruct (Tabs.esTypes field) as [items|];
        rewrite ?foldl_push, IH; simpl; by rewrite ?app_nil_r, <- ?app_assoc.
Qed.

Lemma collectedFilters_by_field fields :
  Tabs.collectedFilters fields
  = (fields ≫= Tabs.indexedTypesOf, omap Tabs.scriptedLanguageOf fields).
Proof.
  unfold Tabs.collectedFilters, Tabs.refreshFilters.
  by rewrite refreshFilters_fold.
Qed.

Lemma refreshFilters_by_field {Options} (convert : list string → string → Options) fields :
  Tabs.refreshFilters convert fields
  = (convert (fields ≫= Tabs.indexedTypesOf) "indexedFiledTypes",
     convert (omap Tabs.scriptedLanguageOf fields) "scriptedFieldLanguages").
Proof. unfold Tabs.refreshFilters. by rewrite refreshFilters_fold. Qed.

(** X8. The filters of the fields [fields1] followed by [fields2] are
    converted from the types collected from [fields1] followed by those
    collected from [fields2], and likewise for the languages: the order
    of the fields is kept and nothing is dropped. *)
Theorem refreshFilters_of_appended_fields {Options}
    (convert : list string → string → Options) fields1 fields2 :
  Tabs.refreshFilters convert (fields1 ++ fields2)
  = (convert ((Tabs.collectedFilters fields1).1 ++ (Tabs.collectedFilters fields2).1)
       "indexedFiledTypes",
     convert ((Tabs.collectedFilters fields1).2 ++ (Tabs.collectedFilters fields2).2)
       "scriptedFieldLanguages").
Proof.
  rewrite refreshFilters_by_field, !collectedFilters_by_field. cbn [fst snd].
  by rewrite omap_app, bind_app.
Qed.

(** X9. The indexed field types handed to the conversion are those of the
    fields that are not scripted: "conflict" when such a field has the
    type conflict, and every element of its [esTypes].  A scripted field
    adds no type. *)
Theorem refreshFilters_indexed_field_types {Options}
    (convert : list string → string → Options) fields :
  (Tabs.refreshFilters convert fields).1
  = convert (Tabs.collectedFilters fields).1 "indexedFiledTypes"
  ∧ ∀ t,
      t ∈ (Tabs.collectedFilters fields).1
      ↔ ∃ field,
          field ∈ fields ∧ Tabs.scripted field = false
          ∧ ((Tabs.type field = "conflict" ∧ t = "conflict")
             ∨ ∃ types, Tabs.esTypes field = Some types ∧ t ∈ types).
Proof.
  rewrite refreshFilters_by_field, collectedFilters_by_field. cbn [fst].
  split; [done|]. intros t. rewrite list_elem_of_bind.
  split.
  - intros (field & Ht & Hfield). exists field. split; [done|].
    unfold Tabs.indexedTypesOf in Ht.
    destruct (Tabs.scripted field); [by apply not_elem_of_nil in Ht|].
    split; [done|]. apply elem_of_app in Ht as [Ht|Ht].
    + case_bool_decide; [|by apply not_elem_of_nil in Ht].
      apply list_elem_of_singleton in Ht. by left.
    + destruct (Tabs.esTypes field) as [types|]; [|by apply not_elem_of_nil in Ht].
      right. by exists types.
  - intros (field & Hfield & Hscripted & Ht). exists field. split; [|done].
    unfold Tabs.indexedTypesOf. rewrite Hscripted. apply elem_of_app.
    destruct Ht as [[Htype ->]|(types & Htypes & Ht)].
    + left. rewrite bool_decide_eq_true_2 by done. by apply list_elem_of_singleton.
    + right. by rewrite Htypes.
Qed.

(** X10. The scripted field languages handed to the conversion are the
    languages of the scripted fields that have one; an undefined or empty
    language, and the language of a field that is not scripted, are left
    out. *)
Theorem refreshFilters_scripted_field_languages {Options}
    (convert : list string → string → Options) fields :
  (Tabs.refreshFilters convert fields).2
  = convert (Tabs.collectedFilters fields).2 "scriptedFieldLanguages"
  ∧ ∀ l,
      l ∈ (Tabs.collectedFilters fields).2
      ↔ ∃ field,
          field ∈ fields ∧ Tabs.scripted field = true
          ∧ Tabs.lang field = Some l ∧ l ≠ "".
Proof.
  rewrite refreshFilters_by_field, collectedFilters_by_field. cbn [snd].
  split; [done|]. intros l. rewrite list_elem_of_omap.
  split.
  - intros (field & Hfield & Hl). exists field. split; [done|].
    unfold Tabs.scriptedLanguageOf in Hl.
    destruct (Tabs.scripted field); [|done].
    destruct (Tabs.lang field) as [l'|]; [|done]. simpl in Hl.
    case_bool_decide; by simplify_eq.
  - intros (field & Hfield & Hscripted & Hlang & Hne). exists field.
    split; [done|]. unfold Tabs.scriptedLanguageOf.
    rewrite Hscripted, Hlang. simpl. by rewrite bool_decide_eq_true_2.
Qed.

(** * Properties of the removal of a data view *)

Section remove_pattern_facts.
Import EditIndexPattern.
Implicit Types (patternId : option string) (defaultIndex : string)
  (services : Responses).

(** The calls of [removePattern], case by case. *)
Lemma removePattern_calls patternId defaultIndex services :
  removePattern patternId defaultIndex services
  = OpenConfirm "" ::
    match isConfirmed services with
    | Some true =>
        (if bool_decide (patternId = Some defaultIndex) then
           GetIdsWithTitle ::
           match indexPatterns services with
           | Some patterns =>
               UiSettingsRemove "defaultIndex" ::
               match head (filter (λ pattern, Some (id pattern) ≠ patternId) patterns) with
               | Some pattern => [UiSettingsSet "defaultIndex" (id pattern)]
               | None => []
               end
           | None => []
           end
         else [])
        ++ (if bool_decide (patternId = Some defaultIndex
                            ∧ indexPatterns services = None) then []
            else match truthy patternId with
                 | Some nonEmptyId =>
                     DataViewsDelete nonEmptyId ::
                     (if deleteFulfilled services then [HistoryPush ""] else [])
                 | None => []
                 end)
    | _ => []
    end.
Proof.
  unfold removePattern, doRemove. f_equal.
  destruct (isConfirmed services) as [[]|]; [|done..].
  case_bool_decide as Hdefault.
  - destruct (indexPatterns services) as [patterns|];
      [|by rewrite bool_decide_eq_true_2].
    rewrite (bool_decide_eq_false_2 (_ ∧ _)) by (intros [_ ?]; congruence).
    simpl. destruct (filter _ patterns) as [|pattern others]; simpl;
      destruct (truthy patternId); simpl; by destruct (deleteFulfilled services).
  - rewrite (bool_decide_eq_false_2 (_ ∧ _)) by (by intros [? _]). simpl.
    destruct (truthy patternId); simpl; by destruct (deleteFulfilled services).
Qed.

(** Membership of a call in a list of calls that is written out. *)
Ltac among_calls :=
  repeat match goal with
    | Hin : _ ∈ [] |- _ => by apply not_elem_of_nil in Hin
    | Hin : _ ∈ _ :: _ |- _ => apply elem_of_cons in Hin as [Hin|Hin]
    | Hin : _ ∈ _ ++ _ |- _ => apply elem_of_app in Hin as [Hin|Hin]
    | Hin : _ ∈ (if ?b then _ else _) |- _ => destruct b
    | Hin : _ ∈ match ?o with Some _ => _ | None => _ end |- _ => destruct o
    end;
  try done; simplify_eq; try done.

Lemma truthy_Some patternId nonEmptyId :
  truthy patternId = Some nonEmptyId → patternId = Some nonEmptyId ∧ nonEmptyId ≠ "".
Proof.
  destruct patternId as [s|]; [|done]. simpl. case_bool_decide; naive_solver.
Qed.

(** X11. Unless the user confirms the dialog, [removePattern] does
    nothing besides opening it: no setting is changed and no data view is
    deleted. *)
Theorem removePattern_unconfirmed_does_nothing patternId defaultIndex services :
  isConfirmed services ≠ Some true →
  removePattern patternId defaultIndex services = [OpenConfirm ""].
Proof.
  intros Hconfirmed. rewrite removePattern_calls.
  by destruct (isConfirmed services) as [[]|].
Qed.

(** X12. The only setting [removePattern] ever sets is [defaultIndex], and
    only while removing the default data view; the value is the id of the
    first data view in the list of the service that is not the one being
    removed, so never the id of the removed data view. *)
Theorem removePattern_new_default_is_another_pattern
    patternId defaultIndex services key value :
  UiSettingsSet key value ∈ removePattern patternId defaultIndex services →
  key = "defaultIndex"
  ∧ patternId = Some defaultIndex
  ∧ Some value ≠ patternId
  ∧ ∃ patterns pattern,
      indexPatterns services = Some patterns
      ∧ head (filter (λ pattern, Some (id pattern) ≠ patternId) patterns) = Some pattern
      ∧ pattern ∈ patterns
      ∧ value = id pattern.
Proof.
  rewrite removePattern_calls. intros Hset.
  destruct (isConfirmed services) as [[]|]; [|among_calls..].
  apply elem_of_cons in Hset as [|Hset]; [done|].
  apply elem_of_app in Hset as [Hset|Hset].
  - case_bool_decide as Hdefault; [|among_calls].
    apply elem_of_cons in Hset as [|Hset]; [done|].
    destruct (indexPatterns services) as [patterns|]; [|among_calls].
    apply elem_of_cons in Hset as [|Hset]; [done|].
    destruct (head (filter _ patterns)) as [pattern|] eqn:Hhead; [|among_calls].
    apply list_elem_of_singleton in Hset. injection Hset as -> ->.
    assert (Hin : pattern ∈ filter (λ pattern, Some (id pattern) ≠ patternId) patterns).
    { apply head_Some_elem_of. done. }
    apply list_elem_of_filter in Hin as [Hother Hin].
    split; [done|]. split; [done|]. split; [done|].
    by exists patterns, pattern.
  - case_bool_decide; [among_calls|].
    destruct (truthy patternId); [|among_calls].
    destruct (deleteFulfilled services); among_calls.
Qed.

(** X13. When the data view is not the default one, [removePattern]
    neither asks for the list of data views nor touches the settings. *)
Theorem removePattern_of_other_pattern_keeps_settings
    patternId defaultIndex services c :
  patternId ≠ Some defaultIndex →
  c ∈ removePattern patternId defaultIndex services →
  c ≠ GetIdsWithTitle
  ∧ (∀ key, c ≠ UiSettingsRemove key)
  ∧ (∀ key value, c ≠ UiSettingsSet key value).
Proof.
  intros Hother. rewrite removePattern_calls.
  rewrite bool_decide_eq_false_2 by done.
  rewrite (bool_decide_eq_false_2 (_ ∧ _)) by (by intros [? _]).
  intros Hc. destruct (isConfirmed services) as [[]|]; among_calls.
Qed.

(** X14. When the default data view is removed and the list of data views
    cannot be fetched, the removal stops there: the setting is kept and
    the data view is not deleted. *)
Theorem removePattern_stops_when_list_fails patternId defaultIndex services :
  isConfirmed services = Some true →
  patternId = Some defaultIndex →
  indexPatterns services = None →
  removePattern patternId defaultIndex services = [OpenConfirm ""; GetIdsWithTitle].
Proof.
  intros Hconfirmed Hdefault Hlist. rewrite removePattern_calls.
  rewrite Hconfirmed, Hlist.
  rewrite bool_decide_eq_true_2 by done.
  by rewrite bool_decide_eq_true_2 by done.
Qed.

(** X15. [removePattern] deletes nothing but the data view it was called
    for, only after the user confirmed, and only when the id of the data
    view is a non-empty string. *)
Theorem removePattern_deletes_only_its_pattern patternId defaultIndex services deleted :
  DataViewsDelete deleted ∈ removePattern patternId defaultIndex services →
  patternId = Some deleted ∧ deleted ≠ "" ∧ isConfirmed services = Some true.
Proof.
  rewrite removePattern_calls. intros Hdelete.
  destruct (isConfirmed services) as [[]|]; [|among_calls..].
  apply elem_of_cons in Hdelete as [|Hdelete]; [done|].
  apply elem_of_app in Hdelete as [Hdelete|Hdelete].
  - case_bool_decide; [|among_calls].
    destruct (indexPatterns services); [|among_calls].
    destruct (head _); among_calls.
  - case_bool_decide; [among_calls|].
    destruct (truthy patternId) as [nonEmptyId|] eqn:Htruthy; [|among_calls].
    apply truthy_Some in Htruthy as [-> Hne].
    destruct (deleteFulfilled services); among_calls.
Qed.

(** X16. [removePattern] navigates away only once the deletion has
    succeeded: [history.push] is called with the empty path, as the last
    call, right after the call that deletes the data view, and only when
    that call is fulfilled. *)
Theorem removePattern_navigates_after_delete patternId defaultIndex services path :
  HistoryPush path ∈ removePattern patternId defaultIndex services →
  path = ""
  ∧ deleteFulfilled services = true
  ∧ ∃ before deleted,
      patternId = Some deleted
      ∧ removePattern patternId defaultIndex services
        = before ++ [DataViewsDelete deleted; HistoryPush ""].
Proof.
  rewrite removePattern_calls. intros Hpush.
  destruct (isConfirmed services) as [[]|]; [|among_calls..].
  apply elem_of_cons in Hpush as [|Hpush]; [done|].
  apply elem_of_app in Hpush as [Hpush|Hpush].
  - case_bool_decide; [|among_calls].
    destruct (indexPatterns services); [|among_calls].
    destruct (head _); among_calls.
  - case_bool_decide; [among_calls|].
    destruct (truthy patternId) as [nonEmptyId|] eqn:Htruthy; [|among_calls].
    apply truthy_Some in Htruthy as [-> Hne].
    destruct (deleteFulfilled services); [|among_calls].
    split; [among_calls|]. split; [done|].
    eexists (_ :: _), nonEmptyId. split; [done|]. reflexivity.
Qed.

End remove_pattern_facts.

(** * The further properties on sample data *)

(** X4 on the rows of the CPU-only series put in front of the sample rows. *)
Lemma uptime_decided_by_last_start_time_row_witness :
  @nonNullValues sampleShared kubernetes_pod_start_time (rows sampleSeries) ≠ []
  ∧ uptime <$> @seriesToPodNodeMetricsRow sampleShared
                 {| keys := None; rows := rows cpuOnlySeries ++ rows sampleSeries |}
                 (num 1000)
    = uptime <$> @seriesToPodNodeMetricsRow sampleShared sampleSeries (num 1000).
Proof.
  assert (Hvalues : @nonNullValues sampleShared kubernetes_pod_start_time
                      (rows sampleSeries) ≠ []).
  { intros Hnil. vm_compute in Hnil. discriminate Hnil. }
  split; [exact Hvalues|].
  exact (proj1 (uptime_decided_by_last_start_time_row (H := sampleShared)
                  None (keys sampleSeries) (rows cpuOnlySeries) (rows sampleSeries)
                  (num 1000)) Hvalues).
Defined.

(** X5 on the sample series and the same series with a third key. *)
Lemma row_depends_on_first_two_keys_only_witness :
  take 2 (default [] (keys sampleSeriesThreeKeys))
  = take 2 (default [] (keys sampleSeries))
  ∧ rows sampleSeriesThreeKeys = rows sampleSeries
  ∧ @seriesToPodNodeMetricsRow sampleShared sampleSeriesThreeKeys (num 1000)
    = @seriesToPodNodeMetricsRow sampleShared sampleSeries (num 1000).
Proof.
  split; [reflexivity|]. split; [reflexivity|].
  exact (row_depends_on_first_two_keys_only (H := sampleShared)
           sampleSeriesThreeKeys sampleSeries (num 1000) eq_refl eq_refl).
Defined.

(** X6 on the sample series read at the clock 200, before its last start
    time 500. *)
Lemma uptime_sign_follows_clock_witness :
  @nonNullValues sampleShared kubernetes_pod_start_time (rows sampleSeries)
  = [num 100] ++ [num 500]
  ∧ (num 200 < num 500)%Qc
  ∧ ∃ u,
      uptime <$> @seriesToPodNodeMetricsRow sampleShared sampleSeries (num 200)
      = Normal (Some u)
      ∧ (u < num 0)%Qc.
Proof.
  assert (Hclock : (num 200 < num 500)%Qc) by reflexivity.
  split; [reflexivity|]. split; [exact Hclock|].
  destruct (uptime_sign_follows_clock (H := sampleShared) sampleSeries (num 200)
              [num 100] (num 500) eq_refl) as (u & Hrun & Hnegative & _).
  exists u. split; [exact Hrun | exact (Hnegative Hclock)].
Defined.

(** X7 on the first render: page 2 and an ascending sort by name are
    stored. *)
Lemma hook_state_after_setters_witness :
  getProp (@usePodMetricsTable sampleShared sampleProps firstRender sampleEnv)
    "setCurrentPageIndex"
  = Some (@VSetCurrentPageIndex sampleShared
            (λ value, write_currentPageIndex (Some value)))
  ∧ getProp (@usePodMetricsTable sampleShared sampleProps firstRender sampleEnv)
      "setSortState"
    = Some (@VSetSortState sampleShared (λ value, write_sortState (Some value)))
  ∧ getProp (@usePodMetricsTable sampleShared sampleProps
               (write_sortState (Some (SortState.mk "name" asc))
                  (write_currentPageIndex (Some (num 2)) firstRender))
               sampleEnv) "currentPageIndex"
    = Some (@VNumber sampleShared (num 2))
  ∧ getProp (@usePodMetricsTable sampleShared sampleProps
               (write_sortState (Some (SortState.mk "name" asc))
                  (write_currentPageIndex (Some (num 2)) firstRender))
               sampleEnv) "sortState"
    = Some (@VSortState sampleShared (SortState.mk "name" asc)).
Proof.
  split; [reflexivity|]. split; [reflexivity|].
  exact (hook_state_after_setters (H := sampleShared) sampleProps firstRender
           sampleEnv (num 2) (SortState.mk "name" asc)
           (λ value, write_currentPageIndex (Some value))
           (λ value, write_sortState (Some value)) eq_refl eq_refl).
Defined.

(** X11 when the user dismisses the dialog. *)
Lemma removePattern_unconfirmed_does_nothing_witness :
  EditIndexPattern.isConfirmed decliningServices ≠ Some true
  ∧ EditIndexPattern.removePattern (Some "logs") "logs" decliningServices
    = [EditIndexPattern.OpenConfirm ""].
Proof.
  assert (Hdeclined : EditIndexPattern.isConfirmed decliningServices ≠ Some true).
  { intros Hyes. discriminate Hyes. }
  split; [exact Hdeclined|].
  exact (removePattern_unconfirmed_does_nothing (Some "logs") "logs"
           decliningServices Hdeclined).
Defined.

(** X12 when the default data view "logs" is removed and "metrics" is
    left. *)
Lemma removePattern_new_default_is_another_pattern_witness :
  EditIndexPattern.UiSettingsSet "defaultIndex" "metrics"
    ∈ EditIndexPattern.removePattern (Some "logs") "logs" sampleServices
  ∧ Some "metrics" ≠ Some "logs"
  ∧ ∃ patterns pattern,
      EditIndexPattern.indexPatterns sampleServices = Some patterns
      ∧ pattern ∈ patterns
      ∧ "metrics" = EditIndexPattern.id pattern.
Proof.
  assert (Hset : EditIndexPattern.UiSettingsSet "defaultIndex" "metrics"
                   ∈ EditIndexPattern.removePattern (Some "logs") "logs" sampleServices).
  { cbv. repeat constructor. }
  split; [exact Hset|].
  destruct (removePattern_new_default_is_another_pattern (Some "logs") "logs"
              sampleServices "defaultIndex" "metrics" Hset)
    as (_ & _ & Hother & patterns & pattern & Hlist & _ & Hin & Hid).
  split; [exact Hother|]. exists patterns, pattern.
  split; [exact Hlist|]. split; [exact Hin | exact Hid].
Defined.

(** X13 when "metrics" is removed while "logs" is the default. *)
Lemma removePattern_of_other_pattern_keeps_settings_witness :
  Some "metrics" ≠ Some "logs"
  ∧ EditIndexPattern.DataViewsDelete "metrics"
      ∈ EditIndexPattern.removePattern (Some "metrics") "logs" sampleServices
  ∧ EditIndexPattern.DataViewsDelete "metrics" ≠ EditIndexPattern.GetIdsWithTitle.
Proof.
  assert (Hother : Some "metrics" ≠ Some "logs").
  { intros Hsame. discriminate Hsame. }
  assert (Hdelete : EditIndexPattern.DataViewsDelete "metrics"
                      ∈ EditIndexPattern.removePattern (Some "metrics") "logs"
                          sampleServices).
  { cbv. repeat constructor. }
  split; [exact Hother|]. split; [exact Hdelete|].
  exact (proj1 (removePattern_of_other_pattern_keeps_settings (Some "metrics") "logs"
                  sampleServices (EditIndexPattern.DataViewsDelete "metrics")
                  Hother Hdelete)).
Defined.

(** X14 when the list of data views cannot be fetched. *)
Lemma removePattern_stops_when_list_fails_witness :
  EditIndexPattern.isConfirmed failingServices = Some true
  ∧ Some "logs" = Some "logs"
  ∧ EditIndexPattern.indexPatterns failingServices = None
  ∧ EditIndexPattern.removePattern (Some "logs") "logs" failingServices
    = [EditIndexPattern.OpenConfirm ""; EditIndexPattern.GetIdsWithTitle].
Proof.
  split; [reflexivity|]. split; [reflexivity|]. split; [reflexivity|].
  exact (removePattern_stops_when_list_fails (Some "logs") "logs" failingServices
           eq_refl eq_refl eq_refl).
Defined.

(** X15 when the default data view "logs" is removed. *)
Lemma removePattern_deletes_only_its_pattern_witness :
  EditIndexPattern.DataViewsDelete "logs"
    ∈ EditIndexPattern.removePattern (Some "logs") "logs" sampleServices
  ∧ Some "logs" = Some "logs"
  ∧ "logs" ≠ ""
  ∧ EditIndexPattern.isConfirmed sampleServices = Some true.
Proof.
  assert (Hdelete : EditIndexPattern.DataViewsDelete "logs"
                      ∈ EditIndexPattern.removePattern (Some "logs") "logs"
                          sampleServices).
  { cbv. repeat constructor. }
  split; [exact Hdelete|].
  exact (removePattern_deletes_only_its_pattern (Some "logs") "logs"
           sampleServices "logs" Hdelete).
Defined.

(** X16 when the default data view "logs" is removed. *)
Lemma removePattern_navigates_after_delete_witness :
  EditIndexPattern.HistoryPush ""
    ∈ EditIndexPattern.removePattern (Some "logs") "logs" sampleServices
  ∧ "" = ""
  ∧ EditIndexPattern.deleteFulfilled sampleServices = true.
Proof.
  assert (Hpush : EditIndexPattern.HistoryPush ""
                    ∈ EditIndexPattern.removePattern (Some "logs") "logs"
                        sampleServices).
  { cbv. repeat constructor. }
  split; [exact Hpush|].
  destruct (removePattern_navigates_after_delete (Some "logs") "logs"
              sampleServices "" Hpush) as (Hpath & Hfulfilled & _).
  split; [exact Hpath | exact Hfulfilled].
Defined.
